(** * xliff: a shallow embedding of the XLIFF 1.2 document model

    The Go package [xliff] (file [xliff.go]) holds an in-memory model of an
    XLIFF 1.2 document, a validator, a completeness predicate, a lookup by
    file name and an operation that appends a translation unit with an
    automatically incremented id.

    Conventions of the embedding:
    - a Go [string] is a [string] (a sequence of 8-bit characters);
    - a Go [int] is a [Z] inside the 64-bit two's complement range, and
      arithmetic on it wraps around ([int_add]);
    - a slice is a [list]; indexing is [index], which panics out of range;
    - a method with receiver [d *Document] is a function of the Document the
      pointer refers to, returning its results together with the Document
      found behind the pointer afterwards;
    - a Go [error] is [option error] ([None] is [nil]);
    - a run-time panic is the [Panics] outcome. *)

From Stdlib Require Import ZArith Lia Ascii.
From stdpp Require Import base decidable option list strings.

Local Open Scope Z_scope.

(** ** Data model *)

Record Tool : Type := mkTool {
  ToolID : string;
  ToolName : string;
  ToolVersion : string;
  BuildNum : string
}.

(** The field of [Header] is called [Tool] in the source, like its type. *)
Record Header : Type := mkHeader {
  HeaderTool : Tool
}.

Record TransUnit : Type := mkTransUnit {
  ID : string;
  Source : string;
  Target : string;
  Note : string
}.

Record Body : Type := mkBody {
  TransUnits : list TransUnit
}.

(** The field of [File] is called [Body] in the source, like its type. *)
Record File : Type := mkFile {
  Original : string;
  SourceLanguage : string;
  Datatype : string;
  TargetLanguage : string;
  FileHeader : Header;
  FileBody : Body
}.

Record Document : Type := mkDocument {
  Version : string;
  Files : list File
}.

Record DocumentExport : Type := mkDocumentExport {
  ExportDocument : Document;
  Xmlns : string;
  Xsi : string;
  SchemaLocation : string
}.

(** Zero values of the struct types. *)
Definition zero_Tool : Tool := mkTool "" "" "" "".
Definition zero_Header : Header := mkHeader zero_Tool.
Definition zero_Body : Body := mkBody [].
Definition zero_File : File := mkFile "" "" "" "" zero_Header zero_Body.
Definition zero_Document : Document := mkDocument "" [].

Global Instance Tool_eq_dec : EqDecision Tool.
Proof. solve_decision. Defined.
Global Instance Header_eq_dec : EqDecision Header.
Proof. solve_decision. Defined.
Global Instance TransUnit_eq_dec : EqDecision TransUnit.
Proof. solve_decision. Defined.
Global Instance Body_eq_dec : EqDecision Body.
Proof. solve_decision. Defined.
Global Instance File_eq_dec : EqDecision File.
Proof. solve_decision. Defined.
Global Instance Document_eq_dec : EqDecision Document.
Proof. solve_decision. Defined.

(** ** Go run-time notions *)

(** [errors.New]. *)
Inductive error : Type :=
  | errors_New (text : string).

Inductive panic : Type :=
  | IndexOutOfRange (i : Z) (length : Z).

Inductive outcome (A : Type) : Type :=
  | Returns (a : A)
  | Panics (p : panic).
Arguments Returns {A} a.
Arguments Panics {A} p.

Global Instance outcome_ret : MRet outcome := fun A a => Returns a.
Global Instance outcome_bind : MBind outcome := fun A B k m =>
  match m with
  | Returns a => k a
  | Panics p => Panics p
  end.

(** [len(s)] of a slice, as a Go [int]. *)
Definition len {A : Type} (s : list A) : Z := Z.of_nat (length s).

(** [s[i]]: the element, or the run-time panic of an index out of range. *)
Definition index {A : Type} (s : list A) (i : Z) : outcome A :=
  if decide (0 <= i) then
    match s !! Z.to_nat i with
    | Some a => Returns a
    | None => Panics (IndexOutOfRange i (len s))
    end
  else Panics (IndexOutOfRange i (len s)).

(** The Go [int] of a 64-bit platform. *)
Definition IntSize : Z := 64.
Definition MinInt : Z := - 2 ^ (IntSize - 1).
Definition MaxInt : Z := 2 ^ (IntSize - 1) - 1.

Definition is_int (n : Z) : Prop := MinInt <= n <= MaxInt.

(** Two's complement wrap-around of a mathematical integer into [int]. *)
Definition int_wrap (n : Z) : Z :=
  (n - MinInt) mod 2 ^ IntSize + MinInt.

Definition int_add (a b : Z) : Z := int_wrap (a + b).

(** ** [strconv]: decimal rendering and parsing of an [int] *)

Definition digit_char (d : Z) : ascii :=
  Ascii.ascii_of_nat (48 + Z.to_nat d).

Definition digit_val (c : ascii) : option Z :=
  let n := Z.of_nat (Ascii.nat_of_ascii c) in
  if decide (48 <= n <= 57) then Some (n - 48) else None.

(** The digit loop of [strconv.formatBits] in base ten: the digits of [u]
    are written from the least significant one, in front of what has been
    written so far.  [fuel] bounds the number of iterations. *)
Fixpoint formatBits (fuel : nat) (u : Z) (acc : string) : string :=
  match fuel with
  | O => acc
  | S fuel' =>
      let acc' := String (digit_char (u mod 10)) acc in
      if decide (u < 10) then acc' else formatBits fuel' (u / 10) acc'
  end.

(** A number below [2 ^ k] has at most [k] decimal digits. *)
Definition FormatUint (u : Z) : string :=
  formatBits (S (Z.to_nat (Z.log2 u))) u "".

(** [strconv.Itoa]: a minus sign for a negative number, then the digits of
    its magnitude. *)
Definition Itoa (i : Z) : string :=
  if decide (i < 0) then String "-"%char (FormatUint (- i)) else FormatUint i.

(** The digit loop of [strconv.ParseUint] in base ten: any character that
    is not a decimal digit is a syntax error. *)
Fixpoint parse_digits (s : string) (n : Z) : option Z :=
  match s with
  | EmptyString => Some n
  | String c rest =>
      match digit_val c with
      | Some d => parse_digits rest (n * 10 + d)
      | None => None
      end
  end.

Definition ParseUint (s : string) : option Z :=
  match s with
  | EmptyString => None
  | _ => parse_digits s 0
  end.

(** [strconv.Atoi]: an optional sign, at least one decimal digit, and a value
    that fits [int]; [None] stands for a non-nil error (syntax or range). *)
Definition Atoi (s : string) : option Z :=
  match s with
  | EmptyString => None
  | String c rest =>
      let neg := bool_decide (c = "-"%char) in
      let digits := if decide (c = "+"%char \/ c = "-"%char) then rest else s in
      match ParseUint digits with
      | None => None
      | Some un =>
          if neg then (if decide (un <= 2 ^ (IntSize - 1)) then Some (- un) else None)
          else (if decide (un < 2 ^ (IntSize - 1)) then Some un else None)
      end
  end.

(** [strings.HasPrefix]. *)
Definition HasPrefix (s prefix : string) : bool := String.prefix prefix s.

(** ** Constructor *)

Definition NewDocument (sl tl : string) : Document :=
  let file := {|
    Original := "";
    Datatype := "plaintext";
    SourceLanguage := sl;
    TargetLanguage := tl;
    FileHeader := zero_Header;
    FileBody := zero_Body
  |} in
  {| Version := "1.2"; Files := [file] |}.

(** ** [fmt]: the formatting verbs the package uses *)

Inductive operand : Type :=
  | str (s : string)
  | int (i : Z).

(** [%s] of a string operand is the string, [%d] of an [int] operand is its
    decimal rendering; a verb without operand is rendered as [fmt] reports
    it.  Other verbs and operand types do not occur in the package. *)
Definition format_verb (verb : ascii) (a : operand) : string :=
  match a with
  | str s => s
  | int i => Itoa i
  end.

Fixpoint Sprintf (format : string) (a : list operand) : string :=
  match format with
  | EmptyString => ""
  | String "%"%char (String verb rest) =>
      match a with
      | x :: a' => format_verb verb x +:+ Sprintf rest a'
      | [] => "%!" +:+ String verb ("(MISSING)" +:+ Sprintf rest [])
      end
  | String c rest => String c (Sprintf rest a)
  end.

(** [fmt.Sprint] of string operands: no space is added between strings. *)
Definition Sprint (a : list string) : string :=
  foldr String.append "" a.

(** [append(s, x)] on a slice. *)
Definition append {A : Type} (s : list A) (x : A) : list A := s ++ [x].

(** ** Validation findings *)

Definition ValidationErrorCode : Type := Z.

Definition UnsupportedVersion : ValidationErrorCode := 0.
Definition MissingOriginalAttribute : ValidationErrorCode := 1.
Definition MissingSourceLanguage : ValidationErrorCode := 2.
Definition MissingTargetLanguage : ValidationErrorCode := 3.
Definition UnsupportedDatatype : ValidationErrorCode := 4.
Definition InconsistentSourceLanguage : ValidationErrorCode := 5.
Definition InconsistentTargetLanguage : ValidationErrorCode := 6.
Definition MissingTransUnitID : ValidationErrorCode := 7.
Definition MissingTransUnitSource : ValidationErrorCode := 8.
Definition MissingTransUnitTarget : ValidationErrorCode := 9.

Record ValidationError : Type := mkValidationError {
  Code : ValidationErrorCode;
  Message : string
}.

Module ValidationError.

(** The [switch] takes the first case equal to [ve.Code]; without a
    matching case [code] keeps its initial value. *)
Definition Error (ve : ValidationError) : string :=
  let code := "Unknown" in
  let code :=
    if decide (Code ve = UnsupportedVersion) then "UnsupportedVersion"
    else if decide (Code ve = MissingOriginalAttribute) then "MissingOriginalAttribute"
    else if decide (Code ve = MissingSourceLanguage) then "MissingSourceLanguage"
    else if decide (Code ve = MissingTargetLanguage) then "MissingTargetLanguage"
    else if decide (Code ve = UnsupportedDatatype) then "UnsupportedDatatype"
    else if decide (Code ve = InconsistentSourceLanguage) then "InconsistentSourceLanguage"
    else if decide (Code ve = InconsistentTargetLanguage) then "InconsistentTargetLanguage"
    else if decide (Code ve = MissingTransUnitID) then "MissingTransUnitID"
    else if decide (Code ve = MissingTransUnitSource) then "MissingTransUnitSource"
    else if decide (Code ve = MissingTransUnitTarget) then "MissingTransUnitTarget"
    else code in
  Sprintf "%s: %s" [str code; str (Message ve)].

End ValidationError.

(** ** Functional options of [AddTransUnit] *)

(** An option is a function on a pointer to a [TransUnit]: it receives the
    unit under construction and may assign to any of its fields. *)
Definition option_func : Type := TransUnit -> TransUnit.

Definition WithNote (note : string) : option_func := fun t =>
  {| ID := ID t; Source := Source t; Target := Target t; Note := note |}.

Definition WithTarget (target : string) : option_func := fun t =>
  {| ID := ID t; Source := Source t; Target := target; Note := Note t |}.

(** ** Methods of [*Document] *)

Module Document.

(** First loop of [Validate]: the attributes of every file. *)
Fixpoint Validate_attributes (idx : Z) (files : list File)
    (errors : list ValidationError) : list ValidationError :=
  match files with
  | [] => errors
  | file :: files' =>
      let errors :=
        if decide (Original file = "") then
          append errors {|
            Code := MissingOriginalAttribute;
            Message := Sprintf "File #%d is missing 'original' attribute" [int idx] |}
        else errors in
      let errors :=
        if decide (SourceLanguage file = "") then
          append errors {|
            Code := MissingSourceLanguage;
            Message := Sprintf "File '%s' is missing 'source-language' attribute"
                         [str (Original file)] |}
        else errors in
      let errors :=
        if decide (TargetLanguage file = "") then
          append errors {|
            Code := MissingTargetLanguage;
            Message := Sprintf "File '%s' is missing 'target-language' attribute"
                         [str (Original file)] |}
        else errors in
      let errors :=
        if decide (Datatype file <> "plaintext") then
          append errors {|
            Code := UnsupportedDatatype;
            Message := Sprintf "File '%s' has unsupported 'datatype' attribute with value '%s'"
                         [str (Original file); str (Datatype file)] |}
        else errors in
      Validate_attributes (idx + 1) files' errors
  end.

(** Second loop: every file against the languages of the first one. *)
Fixpoint Validate_languages (sourceLanguage targetLanguage : string)
    (files : list File) (errors : list ValidationError) : list ValidationError :=
  match files with
  | [] => errors
  | file :: files' =>
      let errors :=
        if decide (SourceLanguage file <> sourceLanguage) then
          append errors {|
            Code := InconsistentSourceLanguage;
            Message := Sprintf "File '%s' has inconsistent 'source-language' attribute '%s'"
                         [str (Original file); str (SourceLanguage file)] |}
        else errors in
      let errors :=
        if decide (TargetLanguage file <> targetLanguage) then
          append errors {|
            Code := InconsistentTargetLanguage;
            Message := Sprintf "File '%s' has inconsistent 'target-language' attribute '%s'"
                         [str (Original file); str (TargetLanguage file)] |}
        else errors in
      Validate_languages sourceLanguage targetLanguage files' errors
  end.

(** Third loop, inner part: the translation units of one file. *)
Fixpoint Validate_transUnits (file : File) (idx : Z) (transUnits : list TransUnit)
    (errors : list ValidationError) : list ValidationError :=
  match transUnits with
  | [] => errors
  | transUnit :: transUnits' =>
      let errors :=
        if decide (ID transUnit = "") then
          append errors {|
            Code := MissingTransUnitID;
            Message := Sprintf "Translation unit #%d in file '%s' is missing 'id' attribute"
                         [int idx; str (Original file)] |}
        else errors in
      let errors :=
        if decide (Source transUnit = "") then
          append errors {|
            Code := MissingTransUnitSource;
            Message := Sprintf "Translation unit '%s' in file '%s' is missing 'source' attribute"
                         [str (ID transUnit); str (Original file)] |}
        else errors in
      let errors :=
        if decide (Target transUnit = "") then
          append errors {|
            Code := MissingTransUnitTarget;
            Message := Sprintf "Translation unit '%s' in file '%s' is missing 'target' attribute"
                         [str (ID transUnit); str (Original file)] |}
        else errors in
      Validate_transUnits file (idx + 1) transUnits' errors
  end.

(** Third loop, outer part. *)
Fixpoint Validate_bodies (files : list File) (errors : list ValidationError)
    : list ValidationError :=
  match files with
  | [] => errors
  | file :: files' =>
      Validate_bodies files'
        (Validate_transUnits file 0 (TransUnits (FileBody file)) errors)
  end.

Definition Validate (d : Document) : outcome (list ValidationError) * Document :=
  let errors : list ValidationError := [] in
  let errors :=
    if decide (Version d <> "1.2") then
      append errors {|
        Code := UnsupportedVersion;
        Message := Sprintf "Version %s is not supported" [str (Version d)] |}
    else errors in
  let errors := Validate_attributes 0 (Files d) errors in
  (file0 ← index (Files d) 0;
   let sourceLanguage := SourceLanguage file0 in
   file0 ← index (Files d) 0;
   let targetLanguage := TargetLanguage file0 in
   let errors := Validate_languages sourceLanguage targetLanguage (Files d) errors in
   let errors := Validate_bodies (Files d) errors in
   mret errors,
   d).

(** Inner loop of [IsComplete]; [false] is the early [return false]. *)
Fixpoint IsComplete_transUnits (transUnits : list TransUnit) : bool :=
  match transUnits with
  | [] => true
  | transUnit :: transUnits' =>
      if bool_decide (Source transUnit = "") || bool_decide (Target transUnit = "")
      then false
      else IsComplete_transUnits transUnits'
  end.

Fixpoint IsComplete_files (files : list File) : bool :=
  match files with
  | [] => true
  | file :: files' =>
      if IsComplete_transUnits (TransUnits (FileBody file))
      then IsComplete_files files'
      else false
  end.

Definition IsComplete (d : Document) : bool * Document :=
  (IsComplete_files (Files d), d).

Fixpoint File_range (files : list File) (original : string) : File * bool :=
  match files with
  | [] => (zero_File, false)
  | file :: files' =>
      if decide (Original file = original) then (file, true)
      else File_range files' original
  end.

Definition lastId (d : Document) : outcome (string * bool) * Document :=
  if decide (len (Files d) = 0) then (Returns ("", false), d)
  else
    (file ← index (Files d) (len (Files d) - 1);
     if decide (len (TransUnits (FileBody file)) = 0) then mret ("-1", true)
     else
       last ← index (TransUnits (FileBody file)) (len (TransUnits (FileBody file)) - 1);
       mret (ID last, true),
     d).

Definition AddTransUnit (source : string) (opts : list option_func) (d : Document)
    : outcome (option error) * Document :=
  if decide (len (Files d) = 0) then
    (Returns (Some (errors_New "document does not contain a file")), d)
  else
    match lastId d with
    | (Panics p, d) => (Panics p, d)
    | (Returns (lastId, ok), d) =>
        if negb ok then
          (Returns (Some (errors_New "could not parse last TransUnit ID")), d)
        else
          match Atoi lastId with
          | None =>
              (Returns (Some (errors_New
                 (Sprint ["last TransUnit ID is not a number:"; lastId]))), d)
          | Some numId =>
              let tu := {| ID := Itoa (int_add numId 1); Source := source;
                           Target := ""; Note := "" |} in
              let tu := foldl (fun tu opt => opt tu) tu opts in
              let i := len (Files d) - 1 in
              match index (Files d) i with
              | Panics p => (Panics p, d)
              | Returns file =>
                  let file := {|
                    Original := Original file;
                    SourceLanguage := SourceLanguage file;
                    Datatype := Datatype file;
                    TargetLanguage := TargetLanguage file;
                    FileHeader := FileHeader file;
                    FileBody := {| TransUnits := append (TransUnits (FileBody file)) tu |}
                  |} in
                  (Returns None,
                   {| Version := Version d;
                      Files := <[Z.to_nat i := file]> (Files d) |})
              end
          end
    end.

Definition File (d : Document) (original : string) : (File * bool) * Document :=
  (File_range (Files d) original, d).

End Document.

(** ** Codec: reading and writing a Document *)

(** [FromFile] and [ToFile] delegate all parsing and printing to [encoding/xml]
    and all input and output to [io/ioutil].  Neither library is part of the
    package; they are the parameters of this section.  An error of a library
    is an [error] value like those of the package. *)
Section Codec.

(** [xml.Header]: the XML declaration and a line feed. *)
Definition xml_Header : string :=
  let quote := String "034"%char "" in
  "<?xml version=" +:+ quote +:+ "1.0" +:+ quote
  +:+ " encoding=" +:+ quote +:+ "UTF-8" +:+ quote +:+ "?>"
  +:+ String "010"%char "".

Variable filesystem : Type.
Variable ioutil_ReadFile : string -> filesystem -> string * option error.
Variable ioutil_WriteFile :
  string -> string -> Z -> filesystem -> option error * filesystem.
Variable xml_Unmarshal : string -> Document -> option error * Document.
Variable xml_Marshal : DocumentExport -> string * option error.

Definition FromFile (path : string) (fs : filesystem) : Document * option error :=
  let '(data, err) := ioutil_ReadFile path fs in
  match err with
  | Some err => (zero_Document, Some err)
  | None =>
      let document := zero_Document in
      let '(err, document) := xml_Unmarshal data document in
      match err with
      | Some err => (zero_Document, Some err)
      | None => (document, None)
      end
  end.

Definition ToFile (path : string) (d : Document) (fs : filesystem)
    : option error * filesystem :=
  let xliff := {|
    ExportDocument := d;
    Xmlns := "urn:oasis:names:tc:xliff:document:1.2";
    Xsi := "http://www.w3.org/2001/XMLSchema-instance";
    SchemaLocation := "urn:oasis:names:tc:xliff:document:1.2 http://docs.oasis-open.org/xliff/v1.2/os/xliff-core-1.2-strict.xsd"
  |} in
  let '(data, err) := xml_Marshal xliff in
  match err with
  | Some err => (Some err, fs)
  | None =>
      let data := xml_Header +:+ data in
      (* permission bits 0664 *)
      let '(err, fs) := ioutil_WriteFile path data 436 fs in
      match err with
      | Some err => (Some err, fs)
      | None => (None, fs)
      end
  end.

End Codec.

(** ** The check battery, as the specification words it *)

(** A check yields its finding when its condition holds, and nothing
    otherwise. *)
Definition finding (P : Prop) `{!Decision P} (code : ValidationErrorCode)
    (message : string) : list ValidationError :=
  if decide P then [ {| Code := code; Message := message |} ] else [].

(** 1. Version check. *)
Definition version_check (d : Document) : list ValidationError :=
  finding (Version d <> "1.2") UnsupportedVersion
    (Sprintf "Version %s is not supported" [str (Version d)]).

(** 2. Attribute checks of the file at position [idx]. *)
Definition attribute_checks (idx : nat) (file : File) : list ValidationError :=
  finding (Original file = "") MissingOriginalAttribute
    (Sprintf "File #%d is missing 'original' attribute" [int (Z.of_nat idx)])
  ++ finding (SourceLanguage file = "") MissingSourceLanguage
    (Sprintf "File '%s' is missing 'source-language' attribute" [str (Original file)])
  ++ finding (TargetLanguage file = "") MissingTargetLanguage
    (Sprintf "File '%s' is missing 'target-language' attribute" [str (Original file)])
  ++ finding (Datatype file <> "plaintext") UnsupportedDatatype
    (Sprintf "File '%s' has unsupported 'datatype' attribute with value '%s'"
       [str (Original file); str (Datatype file)]).

(** 3. Language consistency of a file with the canonical file [first]. *)
Definition consistency_checks (first file : File) : list ValidationError :=
  finding (SourceLanguage file <> SourceLanguage first) InconsistentSourceLanguage
    (Sprintf "File '%s' has inconsistent 'source-language' attribute '%s'"
       [str (Original file); str (SourceLanguage file)])
  ++ finding (TargetLanguage file <> TargetLanguage first) InconsistentTargetLanguage
    (Sprintf "File '%s' has inconsistent 'target-language' attribute '%s'"
       [str (Original file); str (TargetLanguage file)]).

(** 4. Checks of the translation unit at position [idx] of [file]. *)
Definition trans_unit_checks (file : File) (idx : nat) (transUnit : TransUnit)
    : list ValidationError :=
  finding (ID transUnit = "") MissingTransUnitID
    (Sprintf "Translation unit #%d in file '%s' is missing 'id' attribute"
       [int (Z.of_nat idx); str (Original file)])
  ++ finding (Source transUnit = "") MissingTransUnitSource
    (Sprintf "Translation unit '%s' in file '%s' is missing 'source' attribute"
       [str (ID transUnit); str (Original file)])
  ++ finding (Target transUnit = "") MissingTransUnitTarget
    (Sprintf "Translation unit '%s' in file '%s' is missing 'target' attribute"
       [str (ID transUnit); str (Original file)]).

(** The battery: the four groups in order, each in File (then TransUnit)
    order.  Without a first file there is no file to compare in group 3. *)
Definition check_battery (d : Document) : list ValidationError :=
  version_check d
  ++ concat (imap attribute_checks (Files d))
  ++ match Files d with
     | first :: _ => concat (map (consistency_checks first) (Files d))
     | [] => []
     end
  ++ concat (map (fun file =>
               concat (imap (trans_unit_checks file) (TransUnits (FileBody file))))
             (Files d)).

(** A translation unit without gap. *)
Definition translated (transUnit : TransUnit) : Prop :=
  Source transUnit <> "" /\ Target transUnit <> "".

(** The ten codes of the [const] block with their names. *)
Definition defined_codes : list (ValidationErrorCode * string) :=
  [ (UnsupportedVersion, "UnsupportedVersion");
    (MissingOriginalAttribute, "MissingOriginalAttribute");
    (MissingSourceLanguage, "MissingSourceLanguage");
    (MissingTargetLanguage, "MissingTargetLanguage");
    (UnsupportedDatatype, "UnsupportedDatatype");
    (InconsistentSourceLanguage, "InconsistentSourceLanguage");
    (InconsistentTargetLanguage, "InconsistentTargetLanguage");
    (MissingTransUnitID, "MissingTransUnitID");
    (MissingTransUnitSource, "MissingTransUnitSource");
    (MissingTransUnitTarget, "MissingTransUnitTarget") ].

(** The wire form [ToFile] hands to the encoder. *)
Definition wire_form (d : Document) : DocumentExport :=
  {| ExportDocument := d;
     Xmlns := "urn:oasis:names:tc:xliff:document:1.2";
     Xsi := "http://www.w3.org/2001/XMLSchema-instance";
     SchemaLocation := "urn:oasis:names:tc:xliff:document:1.2 http://docs.oasis-open.org/xliff/v1.2/os/xliff-core-1.2-strict.xsd" |}.

(** The id [AddTransUnit] continues from: that of the last unit of the
    file, or the sentinel for an empty body. *)
Definition last_id (file : File) : string :=
  match last (TransUnits (FileBody file)) with
  | Some tu => ID tu
  | None => "-1"
  end.

(** A Document of one file holding one unit with the given id. *)
Definition document_with_id (id : string) : Document :=
  {| Version := "1.2";
     Files := [ {| Original := "a.txt"; SourceLanguage := "de";
                   Datatype := "plaintext"; TargetLanguage := "en";
                   FileHeader := zero_Header;
                   FileBody := {| TransUnits := [ mkTransUnit id "Hallo" "Hello" "" ] |} |} ] |}.


(** An option that leaves the id and the source of the unit alone, as
    [WithNote] and [WithTarget] do. *)
Definition keeps_id_and_source (opt : option_func) : Prop :=
  forall t, ID (opt t) = ID t /\ Source (opt t) = Source t.

(** The file [file] with [tu] appended to its body. *)
Definition with_unit (file : File) (tu : TransUnit) : File :=
  {| Original := Original file;
     SourceLanguage := SourceLanguage file;
     Datatype := Datatype file;
     TargetLanguage := TargetLanguage file;
     FileHeader := FileHeader file;
     FileBody := {| TransUnits := TransUnits (FileBody file) ++ [tu] |} |}.

(** A Document that violates every check of the battery. *)
Definition faulty_document : Document :=
  {| Version := "1.0";
     Files :=
       [ {| Original := ""; SourceLanguage := ""; Datatype := "html";
            TargetLanguage := ""; FileHeader := zero_Header;
            FileBody := {| TransUnits := [ mkTransUnit "" "" "" "" ] |} |};
         {| Original := "b.txt"; SourceLanguage := "de"; Datatype := "plaintext";
            TargetLanguage := "en"; FileHeader := zero_Header;
            FileBody := zero_Body |} ] |}.

(** ** Notions used to describe further behaviour *)

(** The attributes [Validate] demands of a file. *)
Definition attributes_present (file : File) : Prop :=
  Original file <> "" /\ SourceLanguage file <> ""
  /\ TargetLanguage file <> "" /\ Datatype file = "plaintext".

(** [file] has the language pair of [first]. *)
Definition same_languages (first file : File) : Prop :=
  SourceLanguage file = SourceLanguage first
  /\ TargetLanguage file = TargetLanguage first.

(** The fields [Validate] demands of a translation unit. *)
Definition unit_populated (transUnit : TransUnit) : Prop :=
  ID transUnit <> "" /\ Source transUnit <> "" /\ Target transUnit <> "".

Definition structurally_sound (d : Document) : Prop :=
  Version d = "1.2"
  /\ Forall attributes_present (Files d)
  /\ (forall first, head (Files d) = Some first ->
        Forall (same_languages first) (Files d))
  /\ Forall (fun file => Forall unit_populated (TransUnits (FileBody file)))
       (Files d).

(** A Document of two files that passes every check. *)
Definition sound_document : Document :=
  {| Version := "1.2";
     Files :=
       [ {| Original := "One.strings"; SourceLanguage := "en";
            Datatype := "plaintext"; TargetLanguage := "it";
            FileHeader := mkHeader (mkTool "tool" "Tool" "1.0" "7");
            FileBody := {| TransUnits :=
              [ mkTransUnit "0" "Hello" "Ciao" "greeting";
                mkTransUnit "1" "World" "Mondo" "" ] |} |};
         {| Original := "Two.strings"; SourceLanguage := "en";
            Datatype := "plaintext"; TargetLanguage := "it";
            FileHeader := zero_Header;
            FileBody := {| TransUnits :=
              [ mkTransUnit "0" "Yes" "Si" "" ] |} |} ] |}.

(** [errors] holds a finding of the kind [code]. *)
Definition reports (errors : list ValidationError) (code : ValidationErrorCode)
    : Prop :=
  In code (map Code errors).

(** The two options the package provides, as data. *)
Inductive provided_option : Type :=
  | NoteOption (note : string)
  | TargetOption (target : string).

Definition option_of (o : provided_option) : option_func :=
  match o with
  | NoteOption note => WithNote note
  | TargetOption target => WithTarget target
  end.

(** The note and the target given last in a list of options, or the empty
    string when none is given. *)
Definition final_note (options : list provided_option) : string :=
  foldl (fun note o =>
           match o with NoteOption note' => note' | TargetOption _ => note end)
        "" options.

Definition final_target (options : list provided_option) : string :=
  foldl (fun target o =>
           match o with TargetOption target' => target' | NoteOption _ => target end)
        "" options.

(** A caller that adds one unit per source text, in order, without options,
    and stops at the first call that does not return a nil error. *)
Fixpoint add_each (sources : list string) (d : Document)
    : outcome (option error) * Document :=
  match sources with
  | [] => (Returns None, d)
  | source :: sources' =>
      match Document.AddTransUnit source [] d with
      | (Returns None, d') => add_each sources' d'
      | stopped => stopped
      end
  end.

(** The file [file] with the units [tus] appended to its body. *)
Definition with_units (file : File) (tus : list TransUnit) : File :=
  {| Original := Original file;
     SourceLanguage := SourceLanguage file;
     Datatype := Datatype file;
     TargetLanguage := TargetLanguage file;
     FileHeader := FileHeader file;
     FileBody := {| TransUnits := TransUnits (FileBody file) ++ tus |} |}.

(** One unit per source text, numbered from [start], without target and
    note. *)
Definition numbered_units (start : nat) (sources : list string) : list TransUnit :=
  imap (fun i source => mkTransUnit (Itoa (Z.of_nat (start + i))) source "" "")
       sources.

(** A file system that keeps what was written under each path, the latest
    write first, and an encoder and a decoder that only carry the version;
    they stand in for the libraries where a concrete instance is needed. *)
Definition written_files : Type := list (string * string).

Definition write_file (path data : string) (perm : Z) (fs : written_files)
    : option error * written_files :=
  (None, (path, data) :: fs).

Fixpoint read_file (path : string) (fs : written_files) : string * option error :=
  match fs with
  | [] => ("", Some (errors_New "file does not exist"))
  | (path', data) :: fs' =>
      if decide (path' = path) then (data, None) else read_file path fs'
  end.

Definition marshal_version (xliff : DocumentExport) : string * option error :=
  (Version (ExportDocument xliff), None).

Definition unmarshal_version (data : string) (document : Document)
    : option error * Document :=
  match String.index 0 "1.2" data with
  | Some _ => (None, mkDocument "1.2" (Files document))
  | None => (Some (errors_New "no version"), mkDocument "?" (Files document))
  end.

(** What [Validate] and [IsComplete] read of a Document: everything but the
    headers of the files and the notes of the units. *)
Definition without_note (tu : TransUnit) : TransUnit :=
  {| ID := ID tu; Source := Source tu; Target := Target tu; Note := "" |}.

Definition without_metadata_file (file : File) : File :=
  {| Original := Original file;
     SourceLanguage := SourceLanguage file;
     Datatype := Datatype file;
     TargetLanguage := TargetLanguage file;
     FileHeader := zero_Header;
     FileBody := {| TransUnits := map without_note (TransUnits (FileBody file)) |} |}.

Definition without_metadata (d : Document) : Document :=
  {| Version := Version d; Files := map without_metadata_file (Files d) |}.

(** * Properties *)

(** ** Decimal rendering and parsing *)

Lemma digit_val_digit_char d :
  0 <= d < 10 -> digit_val (digit_char d) = Some d.
Proof.
  intros Hd.
  assert (Hcases : d = 0 \/ d = 1 \/ d = 2 \/ d = 3 \/ d = 4 \/ d = 5 \/
                   d = 6 \/ d = 7 \/ d = 8 \/ d = 9) by lia.
  repeat (destruct Hcases as [-> | Hcases]; [reflexivity |]).
  subst d. reflexivity.
Qed.

(** The digits written by [formatBits] are read back by [parse_digits] as
    the number they render, and the first character written is a digit. *)
Lemma parse_formatBits fuel :
  forall u acc, 0 <= u < 2 ^ Z.of_nat (S fuel) ->
    exists m c s,
      formatBits (S fuel) u acc = String c s /\
      is_Some (digit_val c) /\
      forall k, parse_digits (formatBits (S fuel) u acc) k
                = parse_digits acc (k * 10 ^ m + u) /\ 0 < m.
Proof.
  assert (Hsmall : forall fuel u acc, 0 <= u < 10 ->
    exists m c s,
      formatBits (S fuel) u acc = String c s /\
      is_Some (digit_val c) /\
      forall k, parse_digits (formatBits (S fuel) u acc) k
                = parse_digits acc (k * 10 ^ m + u) /\ 0 < m).
  { clear. intros fuel u acc Hu.
    exists 1, (digit_char u), acc.
    cbn [formatBits]. cbv zeta.
    destruct (decide (u < 10)); [| lia].
    rewrite Z.mod_small by lia.
    split; [reflexivity |]. split.
    - rewrite digit_val_digit_char by lia. eexists; reflexivity.
    - intros k. cbn [parse_digits]. rewrite digit_val_digit_char by lia.
      split; [f_equal; lia | lia]. }
  induction fuel as [| fuel IH]; intros u acc Hu.
  - apply Hsmall. change (2 ^ Z.of_nat 1) with 2 in Hu. lia.
  - destruct (decide (u < 10)) as [Hlt | Hge]; [apply Hsmall; lia |].
    assert (Hdiv : 0 <= u / 10 < 2 ^ Z.of_nat (S fuel)).
    { split; [apply Z.div_pos; lia |].
      apply Z.div_lt_upper_bound; [lia |].
      replace (Z.of_nat (S (S fuel))) with (Z.succ (Z.of_nat (S fuel))) in Hu by lia.
      rewrite Z.pow_succ_r in Hu by lia. lia. }
    destruct (IH (u / 10) (String (digit_char (u mod 10)) acc) Hdiv)
      as (m & c & s & Heq & Hc & Hparse).
    exists (m + 1), c, s.
    replace (formatBits (S (S fuel)) u acc)
      with (formatBits (S fuel) (u / 10) (String (digit_char (u mod 10)) acc)).
    2:{ symmetry. cbn [formatBits]. cbv zeta.
        destruct (decide (u < 10)); [lia | reflexivity]. }
    split; [exact Heq |]. split; [exact Hc |].
    intros k. destruct (Hparse k) as [Hk Hm]. rewrite Hk.
    cbn [parse_digits].
    rewrite digit_val_digit_char by (apply Z.mod_pos_bound; lia).
    split; [| lia].
    f_equal. rewrite Z.pow_add_r by lia.
    pose proof (Z.div_mod u 10 ltac:(lia)). lia.
Qed.

Lemma FormatUint_fuel u :
  0 <= u -> 0 <= u < 2 ^ Z.of_nat (S (Z.to_nat (Z.log2 u))).
Proof.
  intros Hu. split; [exact Hu |].
  destruct (decide (u = 0)) as [-> | Hne]; [reflexivity |].
  pose proof (Z.log2_nonneg u).
  replace (Z.of_nat (S (Z.to_nat (Z.log2 u)))) with (Z.succ (Z.log2 u)) by lia.
  apply Z.log2_spec. lia.
Qed.

Lemma ParseUint_FormatUint u :
  0 <= u ->
  exists c s, FormatUint u = String c s /\ is_Some (digit_val c) /\
              ParseUint (FormatUint u) = Some u.
Proof.
  intros Hu. unfold FormatUint.
  destruct (parse_formatBits _ u "" (FormatUint_fuel u Hu))
    as (m & c & s & Heq & Hc & Hparse).
  exists c, s. split; [exact Heq |]. split; [exact Hc |].
  unfold ParseUint. destruct (Hparse 0) as [Hk _].
  rewrite Heq in Hk |- *. rewrite Hk. cbn [parse_digits]. f_equal; lia.
Qed.

Lemma digit_not_sign c :
  is_Some (digit_val c) -> ~ (c = "+"%char \/ c = "-"%char).
Proof.
  intros [d Hd] [-> | ->]; discriminate Hd.
Qed.

(** [Atoi] reads back what [Itoa] renders, for every [int]. *)
Lemma Atoi_Itoa n : is_int n -> Atoi (Itoa n) = Some n.
Proof.
  unfold is_int, MinInt, MaxInt, IntSize. intros Hn. unfold Itoa.
  destruct (decide (n < 0)) as [Hneg | Hpos].
  - destruct (ParseUint_FormatUint (- n) ltac:(lia)) as (c & s & Heq & _ & Hparse).
    unfold Atoi. rewrite bool_decide_eq_true_2 by reflexivity.
    destruct (decide _) as [_ | Hno]; [| exfalso; apply Hno; right; reflexivity].
    rewrite Hparse. unfold IntSize.
    destruct (decide (- n <= 2 ^ (64 - 1))); [f_equal; lia | lia].
  - destruct (ParseUint_FormatUint n ltac:(lia)) as (c & s & Heq & Hc & Hparse).
    rewrite Heq in Hparse |- *. unfold Atoi.
    pose proof (digit_not_sign c Hc) as Hsign.
    destruct (decide _) as [Hyes | _]; [contradiction |].
    rewrite bool_decide_eq_false_2 by tauto.
    rewrite Hparse. unfold IntSize.
    destruct (decide (n < 2 ^ (64 - 1))); [reflexivity | lia].
Qed.

Lemma int_add_no_overflow n : MinInt <= n < MaxInt -> int_add n 1 = n + 1.
Proof.
  unfold int_add, int_wrap, MinInt, MaxInt, IntSize. intros Hn.
  rewrite Z.mod_small; lia.
Qed.

(** ** The loops of [Validate] and the check battery *)

Lemma append_finding (P : Prop) `{!Decision P} code message
    (errors : list ValidationError) :
  (if decide P then append errors {| Code := code; Message := message |} else errors)
  = errors ++ finding P code message.
Proof.
  unfold finding, append. destruct (decide P); [reflexivity |].
  symmetry; apply app_nil_r.
Qed.

Lemma Validate_attributes_spec files :
  forall k errors,
    Document.Validate_attributes (Z.of_nat k) files errors
    = errors ++ concat (imap (fun i => attribute_checks (k + i)) files).
Proof.
  induction files as [| file files IH]; intros k errors.
  - cbn. symmetry; apply app_nil_r.
  - cbn [Document.Validate_attributes imap concat]. cbv zeta.
    rewrite !append_finding.
    replace (Z.of_nat k + 1) with (Z.of_nat (S k)) by lia.
    rewrite IH. unfold attribute_checks at 2.
    rewrite Nat.add_0_r, <- !app_assoc.
    do 6 f_equal. apply imap_ext. intros i x _. cbn.
    f_equal. lia.
Qed.

Lemma Validate_languages_spec first files :
  forall errors,
    Document.Validate_languages (SourceLanguage first) (TargetLanguage first)
      files errors
    = errors ++ concat (map (consistency_checks first) files).
Proof.
  induction files as [| file files IH]; intros errors.
  - cbn. symmetry; apply app_nil_r.
  - cbn [Document.Validate_languages map concat]. cbv zeta.
    rewrite !append_finding, IH. unfold consistency_checks at 2.
    rewrite <- !app_assoc. reflexivity.
Qed.

Lemma Validate_transUnits_spec file transUnits :
  forall k errors,
    Document.Validate_transUnits file (Z.of_nat k) transUnits errors
    = errors ++ concat (imap (fun i => trans_unit_checks file (k + i)) transUnits).
Proof.
  induction transUnits as [| tu transUnits IH]; intros k errors.
  - cbn. symmetry; apply app_nil_r.
  - cbn [Document.Validate_transUnits imap concat]. cbv zeta.
    rewrite !append_finding.
    replace (Z.of_nat k + 1) with (Z.of_nat (S k)) by lia.
    rewrite IH. unfold trans_unit_checks at 2.
    rewrite Nat.add_0_r, <- !app_assoc.
    do 5 f_equal. apply imap_ext. intros i x _. cbn.
    f_equal. lia.
Qed.

Lemma Validate_bodies_spec files :
  forall errors,
    Document.Validate_bodies files errors
    = errors ++ concat (map (fun file =>
                  concat (imap (trans_unit_checks file) (TransUnits (FileBody file))))
                files).
Proof.
  induction files as [| file files IH]; intros errors.
  - cbn. symmetry; apply app_nil_r.
  - cbn [Document.Validate_bodies map concat].
    rewrite IH. change 0 with (Z.of_nat 0).
    rewrite Validate_transUnits_spec, <- app_assoc. reflexivity.
Qed.

(** What [Validate] does on a Document with a first file. *)
Lemma Validate_nonempty version first files :
  Document.Validate (mkDocument version (first :: files))
  = (Returns (check_battery (mkDocument version (first :: files))),
     mkDocument version (first :: files)).
Proof.
  unfold Document.Validate, check_battery. cbv zeta.
  cbn [Files Version index]. f_equal.
  change (index (first :: files) 0) with (Returns first).
  cbn [mbind outcome_bind mret outcome_ret]. f_equal.
  rewrite Validate_bodies_spec, Validate_languages_spec.
  change 0 with (Z.of_nat 0). rewrite Validate_attributes_spec.
  rewrite (append_finding (version <> "1.2")).
  unfold version_check. cbn [Version app]. rewrite <- !app_assoc.
  reflexivity.
Qed.

(** What [Validate] does on a Document without files. *)
Lemma Validate_empty version :
  Document.Validate (mkDocument version [])
  = (Panics (IndexOutOfRange 0 0), mkDocument version []).
Proof. reflexivity. Qed.

(** ** [Validate] *)

(** C1, as amended: for every Document with at least one File, [Validate]
    returns exactly the findings of the check battery, concatenated in check
    order (version check; attribute checks in File order; consistency checks
    against the first File; translation-unit checks in File-then-TransUnit
    order).  Every finding is collected, the result is the empty sequence
    when there is none, and the Document is left as it was. *)
Theorem Validate_returns_check_battery (d : Document) :
  Files d <> [] ->
  Document.Validate d = (Returns (check_battery d), d)
  /\ (check_battery d = [] -> Document.Validate d = (Returns [], d)).
Proof.
  destruct d as [version [| first files]]; [intros H; contradiction H; reflexivity |].
  intros _. rewrite Validate_nonempty. split; [reflexivity |].
  intros ->. reflexivity.
Qed.

Lemma Validate_returns_check_battery_witness :
  Document.Validate faulty_document
  = (Returns (check_battery faulty_document), faulty_document)
  /\ map Code (check_battery faulty_document)
     = [ UnsupportedVersion; MissingOriginalAttribute; MissingSourceLanguage;
         MissingTargetLanguage; UnsupportedDatatype; InconsistentSourceLanguage;
         InconsistentTargetLanguage; MissingTransUnitID; MissingTransUnitSource;
         MissingTransUnitTarget ].
Proof.
  split.
  - apply (Validate_returns_check_battery faulty_document). discriminate.
  - vm_compute. reflexivity.
Defined.

(** C1, as stated, fails on a Document without Files: the battery finds
    nothing to report, and [Validate] does not return. *)
Lemma Validate_zero_files_counterexample :
  check_battery (mkDocument "1.2" []) = []
  /\ Document.Validate (mkDocument "1.2" [])
     = (Panics (IndexOutOfRange 0 0), mkDocument "1.2" []).
Proof. split; reflexivity. Qed.

(** C4: [Validate] indexes [Files[0]] without a guard.  On a Document with
    zero Files this is an index out of range and [Validate] panics; on a
    Document with at least one File the index is in range and [Validate]
    returns, so a panic of [Validate] can only come from an empty [Files]. *)
Theorem Validate_index_first_file (d : Document) :
  (Files d = [] ->
     index (Files d) 0 = Panics (IndexOutOfRange 0 0)
     /\ Document.Validate d = (Panics (IndexOutOfRange 0 0), d))
  /\ (Files d <> [] ->
        (exists first, index (Files d) 0 = Returns first)
        /\ exists errors, Document.Validate d = (Returns errors, d))
  /\ (forall p, (Document.Validate d).1 = Panics p ->
        Files d = [] /\ p = IndexOutOfRange 0 0).
Proof.
  destruct d as [version [| first files]].
  - split; [| split].
    + intros _. split; reflexivity.
    + intros H. contradiction H. reflexivity.
    + rewrite Validate_empty. cbn. intros p [= <-]. split; reflexivity.
  - split; [| split].
    + discriminate.
    + intros _. split; [exists first; reflexivity |].
      eexists. apply Validate_nonempty.
    + rewrite Validate_nonempty. cbn. discriminate.
Qed.

Lemma Validate_index_first_file_witness :
  Document.Validate zero_Document = (Panics (IndexOutOfRange 0 0), zero_Document)
  /\ exists errors,
       Document.Validate faulty_document = (Returns errors, faulty_document).
Proof.
  split.
  - apply (Validate_index_first_file zero_Document). reflexivity.
  - apply (Validate_index_first_file faulty_document). discriminate.
Defined.

(** ** [NewDocument] *)

(** C8: [NewDocument sl tl] has version "1.2" and exactly one File, of
    datatype "plaintext", with the given languages and an empty Body.  The
    constructor is one unconditional record construction: it checks nothing
    and returns this Document for every pair of strings. *)
Theorem NewDocument_shape (sl tl : string) :
  NewDocument sl tl
  = mkDocument "1.2" [ mkFile "" sl "plaintext" tl zero_Header zero_Body ]
  /\ Version (NewDocument sl tl) = "1.2"
  /\ exists file,
       Files (NewDocument sl tl) = [file]
       /\ Datatype file = "plaintext"
       /\ SourceLanguage file = sl
       /\ TargetLanguage file = tl
       /\ TransUnits (FileBody file) = [].
Proof.
  split; [reflexivity |]. split; [reflexivity |].
  eexists. repeat split; reflexivity.
Qed.

(** ** [IsComplete] *)

Lemma IsComplete_transUnits_spec transUnits :
  Document.IsComplete_transUnits transUnits = true <-> Forall translated transUnits.
Proof.
  induction transUnits as [| tu transUnits IH]; cbn [Document.IsComplete_transUnits].
  - split; [constructor | reflexivity].
  - rewrite Forall_cons. unfold translated at 1.
    destruct (bool_decide_reflect (Source tu = "")) as [Hs | Hs]; cbn [orb].
    + split; [discriminate | intros [[Hne _] _]; contradiction].
    + destruct (bool_decide_reflect (Target tu = "")) as [Ht | Ht].
      * split; [discriminate | intros [[_ Hne] _]; contradiction].
      * rewrite IH. tauto.
Qed.

Lemma IsComplete_files_spec files :
  Document.IsComplete_files files = true
  <-> Forall (fun file => Forall translated (TransUnits (FileBody file))) files.
Proof.
  induction files as [| file files IH]; cbn [Document.IsComplete_files].
  - split; [constructor | reflexivity].
  - rewrite Forall_cons, <- IsComplete_transUnits_spec, <- IH.
    destruct (Document.IsComplete_transUnits _); [tauto |].
    split; [discriminate | intros [H _]; discriminate H].
Qed.

(** C6: [IsComplete] returns true exactly when every TransUnit of every File
    has a non-empty source and a non-empty target.  A Document with zero
    Files, or whose Files all have an empty Body, is complete.  The Document
    is left as it was. *)
Theorem IsComplete_iff_all_translated (d : Document) :
  ((Document.IsComplete d).1 = true
   <-> Forall (fun file => Forall translated (TransUnits (FileBody file))) (Files d))
  /\ (Files d = [] -> (Document.IsComplete d).1 = true)
  /\ (Forall (fun file => TransUnits (FileBody file) = []) (Files d) ->
      (Document.IsComplete d).1 = true)
  /\ (Document.IsComplete d).2 = d.
Proof.
  unfold Document.IsComplete. cbn [fst snd].
  split; [apply IsComplete_files_spec |].
  split; [intros ->; reflexivity |].
  split; [| reflexivity].
  intros Hempty. apply IsComplete_files_spec.
  eapply Forall_impl; [exact Hempty |].
  intros file ->. constructor.
Qed.

Lemma IsComplete_iff_all_translated_witness :
  (Document.IsComplete (NewDocument "de" "en")).1 = true
  /\ (Document.IsComplete zero_Document).1 = true.
Proof.
  split.
  - apply (IsComplete_iff_all_translated (NewDocument "de" "en")).
    repeat constructor.
  - apply (IsComplete_iff_all_translated zero_Document). constructor.
Defined.

(** ** [ValidationError.Error] *)

Lemma append_empty_r (s : string) : s +:+ "" = s.
Proof.
  induction s as [| c s IH]; [reflexivity |].
  change (String c s +:+ "") with (String c (s +:+ "")).
  rewrite IH. reflexivity.
Qed.

Lemma Sprintf_code_message (code message : string) :
  Sprintf "%s: %s" [str code; str message] = code +:+ ": " +:+ message.
Proof.
  cbn [Sprintf format_verb]. rewrite append_empty_r. reflexivity.
Qed.

(** C7: the [const] block defines the ten codes 0 to 9, and for each of them
    [Error] renders the name of the code, a colon, a space and the message;
    the rendering begins with the name of the code and never with the
    placeholder "Unknown". *)
Theorem Error_names_every_defined_code :
  map fst defined_codes = [0; 1; 2; 3; 4; 5; 6; 7; 8; 9]
  /\ Forall (fun entry : ValidationErrorCode * string =>
       forall message : string,
         ValidationError.Error {| Code := entry.1; Message := message |}
         = entry.2 +:+ ": " +:+ message
         /\ HasPrefix
              (ValidationError.Error {| Code := entry.1; Message := message |})
              entry.2 = true
         /\ HasPrefix
              (ValidationError.Error {| Code := entry.1; Message := message |})
              "Unknown" = false)
     defined_codes.
Proof.
  split; [reflexivity |].
  unfold defined_codes.
  repeat (constructor;
          [intros message; unfold ValidationError.Error;
           rewrite Sprintf_code_message; repeat split; reflexivity |]).
  constructor.
Qed.

(** ** [File] *)

Lemma File_range_spec original files :
  match Document.File_range files original with
  | (file, true) =>
      exists before after,
        files = before ++ file :: after
        /\ Original file = original
        /\ Forall (fun f => Original f <> original) before
  | (file, false) =>
      file = zero_File /\ Forall (fun f => Original f <> original) files
  end.
Proof.
  induction files as [| f files IH]; cbn [Document.File_range].
  - split; [reflexivity | constructor].
  - destruct (decide (Original f = original)) as [Heq | Hne].
    + exists [], files. repeat split; [exact Heq | constructor].
    + destruct (Document.File_range files original) as [file [|]].
      * destruct IH as (before & after & -> & Horig & Hbefore).
        exists (f :: before), after. repeat split; [exact Horig |].
        constructor; assumption.
      * destruct IH as [-> Hall]. split; [reflexivity |].
        constructor; assumption.
Qed.

(** C9: [File] scans the Files in order and returns the first one whose
    [original] equals the given string, with [true]; when no File matches it
    returns the zero File and [false].  The Document is left as it was. *)
Theorem File_returns_first_match (d : Document) (original : string) :
  (Document.File d original).2 = d
  /\ match (Document.File d original).1 with
     | (file, true) =>
         exists before after,
           Files d = before ++ file :: after
           /\ Original file = original
           /\ Forall (fun f => Original f <> original) before
     | (file, false) =>
         file = zero_File /\ Forall (fun f => Original f <> original) (Files d)
     end.
Proof.
  split; [reflexivity |]. apply File_range_spec.
Qed.

(** ** [AddTransUnit] *)

Lemma index_last {A : Type} (before : list A) (x : A) :
  index (before ++ [x]) (len (before ++ [x]) - 1) = Returns x.
Proof.
  unfold index, len. rewrite length_app. cbn [length].
  destruct (decide (0 <= Z.of_nat (length before + 1) - 1)) as [_ | Hneg]; [| lia].
  replace (Z.to_nat (Z.of_nat (length before + 1) - 1)) with (length before) by lia.
  rewrite list_lookup_middle by reflexivity. reflexivity.
Qed.

Lemma len_snoc {A : Type} (before : list A) (x : A) :
  len (before ++ [x]) <> 0.
Proof. unfold len. rewrite length_app. cbn [length]. lia. Qed.

Lemma insert_last {A : Type} (before : list A) (x y : A) :
  <[Z.to_nat (len (before ++ [x]) - 1) := y]> (before ++ [x]) = before ++ [y].
Proof.
  unfold len. rewrite length_app. cbn [length].
  replace (Z.to_nat (Z.of_nat (length before + 1) - 1)) with (length before) by lia.
  rewrite insert_app_r_alt by lia.
  rewrite Nat.sub_diag. reflexivity.
Qed.

Lemma lastId_spec version before file :
  Document.lastId (mkDocument version (before ++ [file]))
  = (Returns (last_id file, true), mkDocument version (before ++ [file])).
Proof.
  unfold Document.lastId. cbn [Files].
  destruct (decide (len (before ++ [file]) = 0)) as [Hz | _];
    [contradiction (len_snoc before file) |].
  rewrite index_last. cbn [mbind outcome_bind]. f_equal.
  unfold last_id.
  destruct (TransUnits (FileBody file)) as [| tu tus] eqn:Hunits using rev_ind.
  - reflexivity.
  - destruct (decide (len (tus ++ [tu]) = 0)) as [Hz | _];
      [contradiction (len_snoc tus tu) |].
    rewrite index_last, last_snoc. reflexivity.
Qed.

(** What [AddTransUnit] does on a Document with a last file. *)
Lemma AddTransUnit_spec source opts version before file :
  Document.AddTransUnit source opts (mkDocument version (before ++ [file]))
  = match Atoi (last_id file) with
    | None =>
        (Returns (Some (errors_New
           ("last TransUnit ID is not a number:" +:+ last_id file))),
         mkDocument version (before ++ [file]))
    | Some numId =>
        (Returns None,
         mkDocument version
           (before ++ [with_unit file
              (foldl (fun tu opt => opt tu)
                 (mkTransUnit (Itoa (int_add numId 1)) source "" "") opts)]))
    end.
Proof.
  unfold Document.AddTransUnit. cbn [Files].
  destruct (decide (len (before ++ [file]) = 0)) as [Hz | _];
    [contradiction (len_snoc before file) |].
  rewrite lastId_spec. cbn [negb Files Version].
  destruct (Atoi (last_id file)) as [numId |].
  - rewrite index_last, insert_last. reflexivity.
  - unfold Sprint. cbn [foldr]. rewrite append_empty_r. reflexivity.
Qed.

Lemma AddTransUnit_no_files source opts version :
  Document.AddTransUnit source opts (mkDocument version [])
  = (Returns (Some (errors_New "document does not contain a file")),
     mkDocument version []).
Proof. reflexivity. Qed.


Lemma WithNote_keeps_id_and_source note : keeps_id_and_source (WithNote note).
Proof. intros t. split; reflexivity. Qed.

Lemma WithTarget_keeps_id_and_source target :
  keeps_id_and_source (WithTarget target).
Proof. intros t. split; reflexivity. Qed.






(** ** A fresh Document *)



(** * Further properties of the package *)

(** ** A clean validation *)

Lemma finding_nil (P : Prop) `{!Decision P} code message :
  finding P code message = [] <-> ~ P.
Proof.
  unfold finding. destruct (decide P) as [HP | HP].
  - split; [discriminate | intros Hn; contradiction].
  - split; [intros _; exact HP | reflexivity].
Qed.

Lemma concat_imap_nil {A B : Type} (P : A -> Prop) (l : list A) :
  forall f : nat -> A -> list B,
    (forall i x, f i x = [] <-> P x) ->
    (concat (imap f l) = [] <-> Forall P l).
Proof.
  induction l as [| x l IH]; intros f Hf.
  - split; [constructor | reflexivity].
  - rewrite imap_cons. cbn [concat].
    rewrite app_nil, Hf, (IH (f ∘ S)), Forall_cons; [tauto |].
    intros i y. apply Hf.
Qed.

Lemma concat_map_nil {A B : Type} (P : A -> Prop) (f : A -> list B) (l : list A) :
  (forall x, f x = [] <-> P x) ->
  (concat (map f l) = [] <-> Forall P l).
Proof.
  intros Hf. induction l as [| x l IH].
  - split; [constructor | reflexivity].
  - cbn [map concat]. rewrite app_nil, Hf, IH, Forall_cons. tauto.
Qed.

Lemma attribute_checks_nil idx file :
  attribute_checks idx file = [] <-> attributes_present file.
Proof.
  unfold attribute_checks, attributes_present.
  rewrite !app_nil, !finding_nil.
  destruct (decide (Datatype file = "plaintext")); tauto.
Qed.

Lemma consistency_checks_nil first file :
  consistency_checks first file = [] <-> same_languages first file.
Proof.
  unfold consistency_checks, same_languages.
  rewrite !app_nil, !finding_nil.
  destruct (decide (SourceLanguage file = SourceLanguage first));
    destruct (decide (TargetLanguage file = TargetLanguage first)); tauto.
Qed.

Lemma trans_unit_checks_nil file idx transUnit :
  trans_unit_checks file idx transUnit = [] <-> unit_populated transUnit.
Proof.
  unfold trans_unit_checks, unit_populated.
  rewrite !app_nil, !finding_nil. tauto.
Qed.

Lemma check_battery_nil d : check_battery d = [] <-> structurally_sound d.
Proof.
  unfold check_battery, structurally_sound, version_check.
  rewrite !app_nil, finding_nil.
  rewrite (concat_imap_nil attributes_present)
    by (intros; apply attribute_checks_nil).
  rewrite (concat_map_nil
             (fun file => Forall unit_populated (TransUnits (FileBody file))))
    by (intros file; apply concat_imap_nil; intros; apply trans_unit_checks_nil).
  assert (Hc :
    match Files d with
    | first :: _ => concat (map (consistency_checks first) (Files d))
    | [] => []
    end = []
    <-> forall first, head (Files d) = Some first ->
          Forall (same_languages first) (Files d)).
  { destruct (Files d) as [| first files] eqn:Hfiles.
    - split; [intros _ first Hhead; discriminate Hhead | reflexivity].
    - rewrite (concat_map_nil (same_languages first))
        by (intros; apply consistency_checks_nil).
      split.
      + intros Hall first' [= <-]. exact Hall.
      + intros Hall. apply Hall. reflexivity. }
  rewrite Hc.
  destruct (decide (Version d = "1.2")); tauto.
Qed.

(** X1: on a Document with at least one File, [Validate] returns no finding
    exactly when the version is "1.2", every File has its [original], both
    languages and the datatype "plaintext", every File has the language pair
    of the first File, and every TransUnit has an id, a source and a
    target. *)
Theorem Validate_clean_iff_sound (d : Document) :
  Files d <> [] ->
  (Document.Validate d = (Returns [], d) <-> structurally_sound d).
Proof.
  destruct d as [version [| first files]];
    [intros H; contradiction H; reflexivity |].
  intros _. rewrite Validate_nonempty, <- check_battery_nil.
  split.
  - intros [= Heq]. exact Heq.
  - intros ->. reflexivity.
Qed.

Lemma Validate_clean_iff_sound_witness :
  Document.Validate sound_document = (Returns [], sound_document)
  /\ structurally_sound sound_document.
Proof.
  assert (Hclean :
    Document.Validate sound_document = (Returns [], sound_document))
    by (vm_compute; reflexivity).
  split; [exact Hclean |].
  apply (Validate_clean_iff_sound sound_document); [discriminate | exact Hclean].
Defined.

(** X2: a Document on which [Validate] returns no finding is complete:
    [IsComplete] returns true on it. *)
Theorem Validate_clean_implies_complete (d : Document) :
  Document.Validate d = (Returns [], d) ->
  (Document.IsComplete d).1 = true.
Proof.
  destruct d as [version [| first files]]; [reflexivity |].
  rewrite Validate_nonempty. intros [= Hclean].
  apply check_battery_nil in Hclean.
  destruct Hclean as (_ & _ & _ & Hunits).
  unfold Document.IsComplete. cbn [fst].
  apply IsComplete_files_spec.
  eapply Forall_impl; [exact Hunits |].
  intros file Hfile. eapply Forall_impl; [exact Hfile |].
  intros tu (_ & Hs & Ht). split; assumption.
Qed.

Lemma Validate_clean_implies_complete_witness :
  (Document.IsComplete sound_document).1 = true.
Proof.
  apply (Validate_clean_implies_complete sound_document).
  vm_compute. reflexivity.
Defined.

(** ** Which findings are reported *)

Lemma reports_app errors1 errors2 code :
  reports (errors1 ++ errors2) code <-> reports errors1 code \/ reports errors2 code.
Proof. unfold reports. rewrite map_app. apply in_app_iff. Qed.

Lemma reports_nil code : reports [] code <-> False.
Proof. unfold reports. cbn. tauto. Qed.

Lemma reports_finding (P : Prop) `{!Decision P} code' message code :
  reports (finding P code' message) code <-> P /\ code = code'.
Proof.
  unfold reports, finding. destruct (decide P) as [HP | HP]; cbn.
  - split.
    + intros [H | []]. split; [exact HP | symmetry; exact H].
    + intros [_ ->]. left; reflexivity.
  - split; [intros [] | intros [HP' _]; contradiction].
Qed.

Lemma reports_concat_imap {A : Type} (Q : A -> Prop) code (l : list A) :
  forall f : nat -> A -> list ValidationError,
    (forall i x, reports (f i x) code <-> Q x) ->
    (reports (concat (imap f l)) code <-> Exists Q l).
Proof.
  induction l as [| x l IH]; intros f Hf.
  - cbn [imap map concat]. rewrite reports_nil, Exists_nil. tauto.
  - rewrite imap_cons. cbn [concat].
    rewrite reports_app, Hf, (IH (f ∘ S)), Exists_cons; [tauto |].
    intros i y. apply Hf.
Qed.

Lemma reports_concat_map {A : Type} (Q : A -> Prop) code
    (f : A -> list ValidationError) (l : list A) :
  (forall x, reports (f x) code <-> Q x) ->
  (reports (concat (map f l)) code <-> Exists Q l).
Proof.
  intros Hf. induction l as [| x l IH].
  - cbn [imap map concat]. rewrite reports_nil, Exists_nil. tauto.
  - cbn [map concat]. rewrite reports_app, Hf, IH, Exists_cons. tauto.
Qed.

Lemma Exists_never {A : Type} (l : list A) : Exists (fun _ => False) l <-> False.
Proof.
  split; [| contradiction]. induction 1; assumption.
Qed.

(** The findings of one kind in each group of the battery. *)
Lemma reports_version_check d code :
  reports (version_check d) code
  <-> Version d <> "1.2" /\ code = UnsupportedVersion.
Proof.
  unfold version_check. rewrite reports_finding. tauto.
Qed.

Lemma reports_attribute_checks idx file code :
  reports (attribute_checks idx file) code
  <-> (Original file = "" /\ code = MissingOriginalAttribute)
      \/ (SourceLanguage file = "" /\ code = MissingSourceLanguage)
      \/ (TargetLanguage file = "" /\ code = MissingTargetLanguage)
      \/ (Datatype file <> "plaintext" /\ code = UnsupportedDatatype).
Proof.
  unfold attribute_checks. rewrite !reports_app, !reports_finding.
  tauto.
Qed.

Lemma reports_consistency_checks first file code :
  reports (consistency_checks first file) code
  <-> (SourceLanguage file <> SourceLanguage first
       /\ code = InconsistentSourceLanguage)
      \/ (TargetLanguage file <> TargetLanguage first
          /\ code = InconsistentTargetLanguage).
Proof.
  unfold consistency_checks. rewrite !reports_app, !reports_finding.
  tauto.
Qed.

Lemma reports_trans_unit_checks file idx transUnit code :
  reports (trans_unit_checks file idx transUnit) code
  <-> (ID transUnit = "" /\ code = MissingTransUnitID)
      \/ (Source transUnit = "" /\ code = MissingTransUnitSource)
      \/ (Target transUnit = "" /\ code = MissingTransUnitTarget).
Proof.
  unfold trans_unit_checks. rewrite !reports_app, !reports_finding.
  tauto.
Qed.

Lemma reports_check_battery version first files code :
  reports (check_battery (mkDocument version (first :: files))) code
  <-> (version <> "1.2" /\ code = UnsupportedVersion)
      \/ Exists (fun file =>
           (Original file = "" /\ code = MissingOriginalAttribute)
           \/ (SourceLanguage file = "" /\ code = MissingSourceLanguage)
           \/ (TargetLanguage file = "" /\ code = MissingTargetLanguage)
           \/ (Datatype file <> "plaintext" /\ code = UnsupportedDatatype))
         (first :: files)
      \/ Exists (fun file =>
           (SourceLanguage file <> SourceLanguage first
            /\ code = InconsistentSourceLanguage)
           \/ (TargetLanguage file <> TargetLanguage first
               /\ code = InconsistentTargetLanguage))
         (first :: files)
      \/ Exists (fun file =>
           Exists (fun transUnit =>
             (ID transUnit = "" /\ code = MissingTransUnitID)
             \/ (Source transUnit = "" /\ code = MissingTransUnitSource)
             \/ (Target transUnit = "" /\ code = MissingTransUnitTarget))
           (TransUnits (FileBody file)))
         (first :: files).
Proof.
  unfold check_battery. cbn [Files].
  rewrite !reports_app, reports_version_check. cbn [Version].
  rewrite (reports_concat_imap _ code (first :: files) attribute_checks
             (fun i x => reports_attribute_checks i x code)).
  rewrite (reports_concat_map _ code (consistency_checks first) (first :: files)
             (fun x => reports_consistency_checks first x code)).
  rewrite (reports_concat_map
             (fun file => Exists (fun transUnit =>
                (ID transUnit = "" /\ code = MissingTransUnitID)
                \/ (Source transUnit = "" /\ code = MissingTransUnitSource)
                \/ (Target transUnit = "" /\ code = MissingTransUnitTarget))
                (TransUnits (FileBody file))) code).
  - reflexivity.
  - intros file. apply reports_concat_imap.
    intros i x. apply reports_trans_unit_checks.
Qed.

Ltac settle_kind :=
  rewrite reports_check_battery;
  unfold UnsupportedVersion, MissingOriginalAttribute, MissingSourceLanguage,
    MissingTargetLanguage, UnsupportedDatatype, InconsistentSourceLanguage,
    InconsistentTargetLanguage, MissingTransUnitID, MissingTransUnitSource,
    MissingTransUnitTarget;
  repeat setoid_rewrite Exists_exists;
  split; intros H; decompose [or ex and] H;
  try discriminate; simplify_eq; eauto 15.

(** X3: when [Validate] returns, each of the ten kinds of finding is among
    the findings exactly when the Document has the corresponding defect: a
    version other than "1.2"; some File with an empty [original], source
    language or target language, or a datatype other than "plaintext"; some
    File whose source (target) language differs from that of the first File;
    some TransUnit with an empty id, source or target. *)
Theorem Validate_reports_kind_iff_defect (d : Document)
    (errors : list ValidationError) :
  Document.Validate d = (Returns errors, d) ->
  (reports errors UnsupportedVersion <-> Version d <> "1.2")
  /\ (reports errors MissingOriginalAttribute
      <-> Exists (fun file => Original file = "") (Files d))
  /\ (reports errors MissingSourceLanguage
      <-> Exists (fun file => SourceLanguage file = "") (Files d))
  /\ (reports errors MissingTargetLanguage
      <-> Exists (fun file => TargetLanguage file = "") (Files d))
  /\ (reports errors UnsupportedDatatype
      <-> Exists (fun file => Datatype file <> "plaintext") (Files d))
  /\ (reports errors InconsistentSourceLanguage
      <-> exists first,
            head (Files d) = Some first
            /\ Exists (fun file => SourceLanguage file <> SourceLanguage first)
                 (Files d))
  /\ (reports errors InconsistentTargetLanguage
      <-> exists first,
            head (Files d) = Some first
            /\ Exists (fun file => TargetLanguage file <> TargetLanguage first)
                 (Files d))
  /\ (reports errors MissingTransUnitID
      <-> Exists (fun file =>
            Exists (fun transUnit => ID transUnit = "")
              (TransUnits (FileBody file))) (Files d))
  /\ (reports errors MissingTransUnitSource
      <-> Exists (fun file =>
            Exists (fun transUnit => Source transUnit = "")
              (TransUnits (FileBody file))) (Files d))
  /\ (reports errors MissingTransUnitTarget
      <-> Exists (fun file =>
            Exists (fun transUnit => Target transUnit = "")
              (TransUnits (FileBody file))) (Files d)).
Proof.
  destruct d as [version [| first files]];
    [rewrite Validate_empty; discriminate |].
  rewrite Validate_nonempty. intros [= <-]. cbn [Files Version head].
  do 9 (split; [settle_kind |]). settle_kind.
Qed.

Lemma Validate_reports_kind_iff_defect_witness :
  reports (check_battery faulty_document) MissingTransUnitTarget
  /\ reports (check_battery faulty_document) InconsistentSourceLanguage.
Proof.
  split.
  - apply (Validate_reports_kind_iff_defect faulty_document
             (check_battery faulty_document)); [reflexivity |].
    constructor. constructor. reflexivity.
  - apply (Validate_reports_kind_iff_defect faulty_document
             (check_battery faulty_document)); [reflexivity |].
    eexists. split; [reflexivity |].
    apply Exists_cons_tl. constructor. discriminate.
Defined.

(** ** What a successful [AddTransUnit] changes *)

Lemma AddTransUnit_success source opts d d' :
  Document.AddTransUnit source opts d = (Returns None, d') ->
  exists before file numId,
    Files d = before ++ [file]
    /\ Atoi (last_id file) = Some numId
    /\ d' = mkDocument (Version d)
              (before ++ [with_unit file
                 (foldl (fun tu opt => opt tu)
                    (mkTransUnit (Itoa (int_add numId 1)) source "" "") opts)]).
Proof.
  destruct d as [version files].
  destruct files as [| file before _] using rev_ind.
  - rewrite AddTransUnit_no_files. discriminate.
  - rewrite AddTransUnit_spec.
    destruct (Atoi (last_id file)) as [numId |] eqn:Hparse; [| discriminate].
    intros [= <-]. exists before, file, numId.
    repeat split; [exact Hparse].
Qed.

Lemma foldl_provided_options options :
  forall t,
    foldl (fun tu opt => opt tu) t (map option_of options)
    = {| ID := ID t; Source := Source t;
         Target := foldl (fun target o =>
                     match o with
                     | TargetOption target' => target'
                     | NoteOption _ => target
                     end) (Target t) options;
         Note := foldl (fun note o =>
                   match o with
                   | NoteOption note' => note'
                   | TargetOption _ => note
                   end) (Note t) options |}.
Proof.
  induction options as [| o options IH]; intros t.
  - destruct t; reflexivity.
  - cbn [map foldl]. rewrite IH. destruct o; reflexivity.
Qed.

(** X4: [AddTransUnit] applies the options in the order given, after the
    default fields are set.  With options built from [WithNote] and
    [WithTarget], the unit appended to the last File has the given source,
    the id computed from the last id, the target of the last [WithTarget]
    and the note of the last [WithNote], each empty when no such option is
    given. *)
Theorem AddTransUnit_applies_options_in_order (source : string)
    (options : list provided_option) (d d' : Document) :
  Document.AddTransUnit source (map option_of options) d = (Returns None, d') ->
  exists file file' numId,
    last (Files d) = Some file
    /\ Atoi (last_id file) = Some numId
    /\ last (Files d') = Some file'
    /\ last (TransUnits (FileBody file'))
       = Some {| ID := Itoa (int_add numId 1);
                 Source := source;
                 Target := final_target options;
                 Note := final_note options |}.
Proof.
  intros Hadd.
  destruct (AddTransUnit_success _ _ _ _ Hadd)
    as (before & file & numId & Hfiles & Hparse & ->).
  exists file, (with_unit file
    (foldl (fun tu opt => opt tu)
       (mkTransUnit (Itoa (int_add numId 1)) source "" "")
       (map option_of options))), numId.
  rewrite Hfiles. cbn [Files]. rewrite !last_snoc.
  repeat split; [exact Hparse |].
  cbn [with_unit FileBody TransUnits]. rewrite last_snoc.
  rewrite foldl_provided_options. reflexivity.
Qed.

Lemma AddTransUnit_applies_options_in_order_witness :
  exists file',
    last (Files (Document.AddTransUnit "Tag"
                   [WithTarget "dai"; WithNote "noun"; WithTarget "day"]
                   (document_with_id "41")).2) = Some file'
    /\ last (TransUnits (FileBody file'))
       = Some (mkTransUnit "42" "Tag" "day" "noun").
Proof.
  destruct (AddTransUnit_applies_options_in_order "Tag"
              [TargetOption "dai"; NoteOption "noun"; TargetOption "day"]
              (document_with_id "41")
              (Document.AddTransUnit "Tag"
                 [WithTarget "dai"; WithNote "noun"; WithTarget "day"]
                 (document_with_id "41")).2)
    as (file & file' & numId & Hlast & Hparse & Hlast' & Hunit);
    [reflexivity |].
  exists file'. split; [exact Hlast' |].
  rewrite Hunit.
  injection Hlast as <-. injection Hparse as <-. reflexivity.
Defined.



(** ** Adding several units in a row *)

Lemma Itoa_inj n m : is_int n -> is_int m -> Itoa n = Itoa m -> n = m.
Proof.
  intros Hn Hm Heq.
  assert (H : Some n = Some m)
    by (rewrite <- (Atoi_Itoa n Hn), <- (Atoi_Itoa m Hm), Heq; reflexivity).
  injection H as ->. reflexivity.
Qed.

Lemma with_units_nil file : with_units file [] = file.
Proof.
  destruct file as [? ? ? ? ? [units]]. unfold with_units. cbn.
  rewrite app_nil_r. reflexivity.
Qed.

Lemma with_units_with_unit file tu tus :
  with_units (with_unit file tu) tus = with_units file (tu :: tus).
Proof.
  unfold with_units, with_unit.
  cbn [Original SourceLanguage Datatype TargetLanguage FileHeader FileBody
       TransUnits].
  rewrite <- app_assoc. reflexivity.
Qed.

Lemma numbered_units_cons k source sources :
  numbered_units k (source :: sources)
  = mkTransUnit (Itoa (Z.of_nat k)) source "" "" :: numbered_units (S k) sources.
Proof.
  unfold numbered_units. rewrite imap_cons, Nat.add_0_r. f_equal.
  apply imap_ext. intros i x _. cbn. do 3 f_equal. lia.
Qed.

Lemma add_each_numbered sources :
  forall version before file (k : nat),
    last_id file = Itoa (Z.of_nat k - 1) ->
    Z.of_nat (k + length sources) <= MaxInt + 1 ->
    add_each sources (mkDocument version (before ++ [file]))
    = (Returns None,
       mkDocument version (before ++ [with_units file (numbered_units k sources)])).
Proof.
  induction sources as [| source sources IH]; intros version before file k Hid Hk.
  - cbn [add_each]. unfold numbered_units. cbn [imap].
    rewrite with_units_nil. reflexivity.
  - cbn [add_each length] in *.
    rewrite AddTransUnit_spec, Hid, Atoi_Itoa
      by (unfold is_int, MinInt, MaxInt, IntSize in *; lia).
    rewrite int_add_no_overflow
      by (unfold MinInt, MaxInt, IntSize in *; lia).
    cbn [foldl].
    replace (Z.of_nat k - 1 + 1) with (Z.of_nat k) by lia.
    rewrite (IH version before _ (S k)).
    + rewrite with_units_with_unit, <- numbered_units_cons. reflexivity.
    + unfold last_id, with_unit. cbn [FileBody TransUnits].
      rewrite last_snoc. cbn [ID]. f_equal. lia.
    + lia.
Qed.

Lemma NoDup_numbered_ids sources :
  forall k : nat,
    Z.of_nat (k + length sources) <= MaxInt + 1 ->
    NoDup (map ID (numbered_units k sources)).
Proof.
  induction sources as [| source sources IH]; intros k Hk.
  - constructor.
  - rewrite numbered_units_cons. cbn [map ID length] in *. constructor.
    + intros Hin. apply list_elem_of_In in Hin.
      apply in_map_iff in Hin. destruct Hin as (tu & Hid & Hin).
      apply list_elem_of_In, elem_of_lookup_imap in Hin.
      destruct Hin as (i & x & -> & Hlookup). cbn [ID] in Hid.
      apply lookup_lt_Some in Hlookup.
      apply Itoa_inj in Hid;
        [lia | unfold is_int, MinInt, MaxInt, IntSize in *; lia ..].
    + apply IH. lia.
Qed.

(** X6: adding units one after the other to a fresh Document, at most 2^63
    of them, always succeeds; the single File then holds one unit per source
    text, in order, with the ids "0", "1", "2", ... and with empty target and
    note; no two of these ids are equal. *)
Theorem add_each_numbers_from_zero (sl tl : string) (sources : list string) :
  Z.of_nat (length sources) <= MaxInt + 1 ->
  add_each sources (NewDocument sl tl)
  = (Returns None,
     mkDocument "1.2"
       [ mkFile "" sl "plaintext" tl zero_Header
           (mkBody (imap (fun i source =>
                      mkTransUnit (Itoa (Z.of_nat i)) source "" "") sources)) ])
  /\ NoDup (map ID (imap (fun i source =>
                      mkTransUnit (Itoa (Z.of_nat i)) source "" "") sources)).
Proof.
  intros Hlen. split.
  - exact (add_each_numbered sources "1.2" []
             (mkFile "" sl "plaintext" tl zero_Header zero_Body) 0
             eq_refl Hlen).
  - exact (NoDup_numbered_ids sources 0 Hlen).
Qed.

Lemma add_each_numbers_from_zero_witness :
  add_each ["eins"; "zwei"; "drei"] (NewDocument "de" "en")
  = (Returns None,
     mkDocument "1.2"
       [ mkFile "" "de" "plaintext" "en" zero_Header
           (mkBody [ mkTransUnit "0" "eins" "" "";
                     mkTransUnit "1" "zwei" "" "";
                     mkTransUnit "2" "drei" "" "" ]) ]).
Proof.
  apply (add_each_numbers_from_zero "de" "en" ["eins"; "zwei"; "drei"]).
  unfold MaxInt, IntSize. cbn [length]. lia.
Defined.

(** ** Completeness and validation after [AddTransUnit] *)

(** X7: after a successful [AddTransUnit] with options built from
    [WithNote] and [WithTarget], the Document is complete exactly when it was
    complete before, the given source is non-empty and a non-empty target
    was given last; in particular a unit added without [WithTarget] makes
    the Document incomplete. *)
Theorem IsComplete_after_AddTransUnit (source : string)
    (options : list provided_option) (d d' : Document) :
  Document.AddTransUnit source (map option_of options) d = (Returns None, d') ->
  ((Document.IsComplete d').1 = true
   <-> (Document.IsComplete d).1 = true
       /\ source <> "" /\ final_target options <> "")
  /\ (Forall (fun o => exists note, o = NoteOption note) options ->
      (Document.IsComplete d').1 = false).
Proof.
  intros Hadd.
  destruct (AddTransUnit_success _ _ _ _ Hadd)
    as (before & file & numId & Hfiles & _ & ->).
  destruct d as [version files]. cbn [Files Version] in *. subst files.
  rewrite foldl_provided_options. cbn [ID Source Target Note].
  fold (final_target options). fold (final_note options).
  assert (Hiff :
    (Document.IsComplete
       (mkDocument version
          (before ++ [with_unit file
             (mkTransUnit (Itoa (int_add numId 1)) source
                (final_target options) (final_note options))]))).1 = true
    <-> (Document.IsComplete (mkDocument version (before ++ [file]))).1 = true
        /\ source <> "" /\ final_target options <> "").
  { unfold Document.IsComplete. cbn [fst Files].
    rewrite !IsComplete_files_spec, !Forall_app, !Forall_singleton.
    unfold with_unit. cbn [FileBody TransUnits].
    rewrite Forall_app, Forall_singleton. unfold translated at 3.
    cbn [Source Target]. tauto. }
  split; [exact Hiff |].
  intros Hnotes.
  apply not_true_is_false. intros Hcomplete.
  apply Hiff in Hcomplete. destruct Hcomplete as (_ & _ & Htarget).
  apply Htarget.
  clear -Hnotes. unfold final_target.
  induction Hnotes as [| o options [note ->] _ IH]; [reflexivity |].
  cbn [foldl]. exact IH.
Qed.

Lemma IsComplete_after_AddTransUnit_witness :
  (Document.IsComplete
     (Document.AddTransUnit "No" [WithTarget "No"] sound_document).2).1 = true
  /\ (Document.IsComplete
        (Document.AddTransUnit "No" [WithNote "short"] sound_document).2).1 = false.
Proof.
  split.
  - apply (IsComplete_after_AddTransUnit "No" [TargetOption "No"] sound_document
             (Document.AddTransUnit "No" [WithTarget "No"] sound_document).2);
      [reflexivity |].
    split; [reflexivity | split; discriminate].
  - apply (IsComplete_after_AddTransUnit "No" [NoteOption "short"] sound_document
             (Document.AddTransUnit "No" [WithNote "short"] sound_document).2);
      [reflexivity |].
    constructor; [eexists; reflexivity | constructor].
Defined.




(** ** Rendering a code outside the [const] block *)

(** X9: [Error] falls back to the placeholder exactly for the codes that
    the [const] block does not define: the rendering begins with "Unknown"
    if and only if the code is not one of 0 to 9, and it is then "Unknown: "
    followed by the message. *)
Theorem Error_unknown_iff_undefined (ve : ValidationError) :
  (HasPrefix (ValidationError.Error ve) "Unknown" = true
   <-> ~ (0 <= Code ve <= 9))
  /\ (~ (0 <= Code ve <= 9) ->
      ValidationError.Error ve = "Unknown: " +:+ Message ve).
Proof.
  destruct ve as [code message]. unfold ValidationError.Error.
  rewrite Sprintf_code_message. cbn [Code Message].
  unfold UnsupportedVersion, MissingOriginalAttribute, MissingSourceLanguage,
    MissingTargetLanguage, UnsupportedDatatype, InconsistentSourceLanguage,
    InconsistentTargetLanguage, MissingTransUnitID, MissingTransUnitSource,
    MissingTransUnitTarget.
  repeat (destruct (decide (code = _)) as [-> | ?];
          [split; [split; [discriminate | intros H; contradiction H; lia]
                  | intros H; contradiction H; lia] |]).
  split; [split; [intros _; lia | reflexivity] | reflexivity].
Qed.

Lemma Error_unknown_iff_undefined_witness :
  ValidationError.Error (mkValidationError 10 "x") = "Unknown: x"
  /\ ValidationError.Error (mkValidationError (-1) "y") = "Unknown: y".
Proof.
  split.
  - apply (Error_unknown_iff_undefined (mkValidationError 10 "x")).
    cbn [Code]. lia.
  - apply (Error_unknown_iff_undefined (mkValidationError (-1) "y")).
    cbn [Code]. lia.
Defined.

(** ** [lastId] *)

(** X10: [lastId] never panics and leaves the Document as it was.  Its flag
    is false exactly when the Document has zero Files, and the id is then
    empty; otherwise the id is that of the last TransUnit of the last File,
    or "-1" when that File has no TransUnit. *)
Theorem lastId_of_last_file (d : Document) :
  (Document.lastId d).2 = d
  /\ exists id ok,
       (Document.lastId d).1 = Returns (id, ok)
       /\ (ok = false <-> Files d = [])
       /\ (Files d = [] -> id = "")
       /\ (forall file,
             last (Files d) = Some file ->
             (TransUnits (FileBody file) = [] -> id = "-1")
             /\ (forall tu,
                   last (TransUnits (FileBody file)) = Some tu -> id = ID tu)).
Proof.
  destruct d as [version files].
  destruct files as [| file before _] using rev_ind.
  - split; [reflexivity |]. exists "", false.
    split; [reflexivity |].
    split; [split; intros _; reflexivity |].
    split; [intros _; reflexivity |].
    intros f Hlast. discriminate Hlast.
  - rewrite lastId_spec. cbn [fst snd Files].
    split; [reflexivity |]. exists (last_id file), true.
    split; [reflexivity |].
    split; [split; [discriminate | intros H; destruct before; discriminate H] |].
    split; [intros H; destruct before; discriminate H |].
    intros file'. rewrite last_snoc. intros [= <-]. unfold last_id. split.
    + intros ->. reflexivity.
    + intros tu ->. reflexivity.
Qed.

(** ** A fresh Document with language tags *)

(** X11: with two non-empty language tags, the missing [original] is the
    only finding [Validate] reports on a fresh Document. *)
Theorem Validate_NewDocument_only_original (sl tl : string) :
  sl <> "" -> tl <> "" ->
  Document.Validate (NewDocument sl tl)
  = (Returns [ {| Code := MissingOriginalAttribute;
                  Message := "File #0 is missing 'original' attribute" |} ],
     NewDocument sl tl).
Proof.
  intros Hsl Htl. unfold NewDocument. rewrite Validate_nonempty.
  unfold check_battery, version_check, attribute_checks, consistency_checks,
    finding.
  cbn [Files Version imap map concat Original SourceLanguage TargetLanguage
       Datatype FileBody TransUnits zero_Body].
  destruct (decide (sl = "")) as [Heq | _]; [contradiction |].
  destruct (decide (tl = "")) as [Heq | _]; [contradiction |].
  destruct (decide (sl <> sl)) as [Hne | _]; [contradiction Hne; reflexivity |].
  destruct (decide (tl <> tl)) as [Hne | _]; [contradiction Hne; reflexivity |].
  reflexivity.
Qed.

Lemma Validate_NewDocument_only_original_witness :
  Document.Validate (NewDocument "de" "en")
  = (Returns [ {| Code := MissingOriginalAttribute;
                  Message := "File #0 is missing 'original' attribute" |} ],
     NewDocument "de" "en").
Proof.
  apply (Validate_NewDocument_only_original "de" "en"); discriminate.
Defined.

(** ** Reading and writing through the libraries *)

(** X12: [FromFile] returns a whole Document or none.  When reading the
    file fails it returns that error without consulting the decoder; when
    the decoder fails it returns the decoder's error; in both cases the
    Document returned is the zero Document, not what the decoder may have
    filled in.  Otherwise it returns what the decoder made of a zero
    Document, and a nil error. *)
Theorem FromFile_whole_or_nothing (filesystem : Type)
    (ioutil_ReadFile : string -> filesystem -> string * option error)
    (xml_Unmarshal : string -> Document -> option error * Document)
    (path : string) (fs : filesystem) :
  (forall e,
     (FromFile filesystem ioutil_ReadFile xml_Unmarshal path fs).2 = Some e ->
     (FromFile filesystem ioutil_ReadFile xml_Unmarshal path fs).1 = zero_Document)
  /\ (forall data e,
        ioutil_ReadFile path fs = (data, Some e) ->
        FromFile filesystem ioutil_ReadFile xml_Unmarshal path fs
        = (zero_Document, Some e))
  /\ (forall data e document,
        ioutil_ReadFile path fs = (data, None) ->
        xml_Unmarshal data zero_Document = (Some e, document) ->
        FromFile filesystem ioutil_ReadFile xml_Unmarshal path fs
        = (zero_Document, Some e))
  /\ (forall data document,
        ioutil_ReadFile path fs = (data, None) ->
        xml_Unmarshal data zero_Document = (None, document) ->
        FromFile filesystem ioutil_ReadFile xml_Unmarshal path fs
        = (document, None)).
Proof.
  unfold FromFile.
  destruct (ioutil_ReadFile path fs) as [data [e |]] eqn:Hread.
  - split; [intros e' _; reflexivity |].
    split; [intros data' e' [= _ <-]; reflexivity |].
    split; intros; discriminate.
  - destruct (xml_Unmarshal data zero_Document) as [[e |] document] eqn:Hdecode.
    + split; [intros e' _; reflexivity |].
      split; [intros; discriminate |].
      split.
      * intros data' e' document' [= <-]. rewrite Hdecode.
        intros [= <- _]. reflexivity.
      * intros data' document' [= <-]. rewrite Hdecode. discriminate.
    + split; [intros e'; discriminate |].
      split; [intros; discriminate |].
      split.
      * intros data' e' document' [= <-]. rewrite Hdecode. discriminate.
      * intros data' document' [= <-]. rewrite Hdecode.
        intros [= <-]. reflexivity.
Qed.

Lemma FromFile_whole_or_nothing_witness :
  FromFile written_files read_file unmarshal_version "a.xliff" []
  = (zero_Document, Some (errors_New "file does not exist"))
  /\ FromFile written_files read_file unmarshal_version "a.xliff"
       [("a.xliff", "version 1.1")]
     = (zero_Document, Some (errors_New "no version")).
Proof.
  split.
  - apply (proj1 (proj2 (FromFile_whole_or_nothing written_files read_file
                           unmarshal_version "a.xliff" [])) "").
    reflexivity.
  - apply (proj1 (proj2 (proj2 (FromFile_whole_or_nothing written_files
             read_file unmarshal_version "a.xliff"
             [("a.xliff", "version 1.1")])))
             "version 1.1" _ (mkDocument "?" []));
      reflexivity.
Defined.

(** X13: [ToFile] encodes the wire form of the Document, which wraps it
    with the three fixed namespace and schema attributes.  When the encoder
    fails, [ToFile] returns its error and writes nothing.  Otherwise it makes
    one write, of the XML declaration followed by the encoded bytes, with
    permission 0664, and returns the outcome of that write. *)
Theorem ToFile_writes_header_and_encoding (filesystem : Type)
    (ioutil_WriteFile :
       string -> string -> Z -> filesystem -> option error * filesystem)
    (xml_Marshal : DocumentExport -> string * option error)
    (path : string) (d : Document) (fs : filesystem) :
  (forall data e,
     xml_Marshal (wire_form d) = (data, Some e) ->
     ToFile filesystem ioutil_WriteFile xml_Marshal path d fs = (Some e, fs))
  /\ (forall data,
        xml_Marshal (wire_form d) = (data, None) ->
        ToFile filesystem ioutil_WriteFile xml_Marshal path d fs
        = ioutil_WriteFile path (xml_Header +:+ data) 436 fs).
Proof.
  unfold ToFile. fold (wire_form d).
  split.
  - intros data e ->. reflexivity.
  - intros data ->.
    destruct (ioutil_WriteFile path (xml_Header +:+ data) 436 fs)
      as [[e |] fs']; reflexivity.
Qed.

Lemma ToFile_writes_header_and_encoding_witness :
  ToFile written_files write_file marshal_version "a.xliff" sound_document []
  = (None, [("a.xliff", xml_Header +:+ "1.2")]).
Proof.
  apply (proj2 (ToFile_writes_header_and_encoding written_files write_file
                  marshal_version "a.xliff" sound_document []) "1.2").
  reflexivity.
Defined.



(** ** What validation does not read *)

Lemma imap_map {A B C : Type} (f : nat -> B -> C) (g : A -> B) (l : list A) :
  imap f (map g l) = imap (fun i x => f i (g x)) l.
Proof.
  revert f. induction l as [| x l IH]; intros f; [reflexivity |].
  cbn [map imap]. f_equal. apply IH.
Qed.

Lemma check_battery_without_metadata d :
  check_battery (without_metadata d) = check_battery d.
Proof.
  unfold check_battery, without_metadata, version_check. cbn [Files Version].
  assert (Hattributes :
    concat (imap attribute_checks (map without_metadata_file (Files d)))
    = concat (imap attribute_checks (Files d)))
    by (rewrite imap_map; reflexivity).
  assert (Hlanguages :
    match map without_metadata_file (Files d) with
    | first :: _ =>
        concat (map (consistency_checks first)
                  (map without_metadata_file (Files d)))
    | [] => []
    end
    = match Files d with
      | first :: _ => concat (map (consistency_checks first) (Files d))
      | [] => []
      end).
  { destruct (Files d) as [| first files]; [reflexivity |].
    cbn [map]. rewrite map_map. reflexivity. }
  assert (Hunits :
    concat (map (fun file =>
              concat (imap (trans_unit_checks file) (TransUnits (FileBody file))))
              (map without_metadata_file (Files d)))
    = concat (map (fun file =>
                concat (imap (trans_unit_checks file) (TransUnits (FileBody file))))
                (Files d))).
  { rewrite map_map. f_equal. apply map_ext. intros file.
    unfold without_metadata_file at 2. cbn [FileBody TransUnits].
    rewrite imap_map. reflexivity. }
  rewrite Hattributes, Hlanguages, Hunits. reflexivity.
Qed.

Lemma IsComplete_transUnits_without_note transUnits :
  Document.IsComplete_transUnits (map without_note transUnits)
  = Document.IsComplete_transUnits transUnits.
Proof.
  induction transUnits as [| tu transUnits IH]; [reflexivity |].
  cbn [map Document.IsComplete_transUnits]. rewrite IH. reflexivity.
Qed.

Lemma IsComplete_files_without_metadata files :
  Document.IsComplete_files (map without_metadata_file files)
  = Document.IsComplete_files files.
Proof.
  induction files as [| file files IH]; [reflexivity |].
  cbn [map Document.IsComplete_files]. rewrite IH.
  unfold without_metadata_file at 1. cbn [FileBody TransUnits].
  rewrite IsComplete_transUnits_without_note. reflexivity.
Qed.

(** X15: [Validate] and [IsComplete] read neither the header of a File nor
    the note of a TransUnit: two Documents that differ only in headers and
    notes get the same findings (or both make [Validate] panic) and the same
    answer of [IsComplete]. *)
Theorem Validate_ignores_headers_and_notes (d1 d2 : Document) :
  without_metadata d1 = without_metadata d2 ->
  (Document.Validate d1).1 = (Document.Validate d2).1
  /\ (Document.IsComplete d1).1 = (Document.IsComplete d2).1.
Proof.
  assert (Hvalidate : forall d,
    (Document.Validate (without_metadata d)).1 = (Document.Validate d).1).
  { intros d.
    pose proof (check_battery_without_metadata d) as Hbattery.
    destruct d as [version [| first files]]; [reflexivity |].
    unfold without_metadata in *. cbn [Files Version map] in *.
    rewrite !Validate_nonempty. cbn [fst]. f_equal. exact Hbattery. }
  assert (Hcomplete : forall d,
    (Document.IsComplete (without_metadata d)).1 = (Document.IsComplete d).1).
  { intros d. unfold Document.IsComplete, without_metadata. cbn [fst Files].
    apply IsComplete_files_without_metadata. }
  intros Heq.
  rewrite <- (Hvalidate d1), <- (Hvalidate d2), <- (Hcomplete d1),
    <- (Hcomplete d2), Heq.
  split; reflexivity.
Qed.

Lemma Validate_ignores_headers_and_notes_witness :
  (Document.Validate sound_document).1
  = (Document.Validate (without_metadata sound_document)).1
  /\ (Document.IsComplete sound_document).1
     = (Document.IsComplete (without_metadata sound_document)).1.
Proof.
  apply (Validate_ignores_headers_and_notes sound_document
           (without_metadata sound_document)).
  reflexivity.
Defined.

(** ** Looking up the Files of a Document *)

Lemma File_range_found original files :
  (Document.File_range files original).2 = true
  <-> Exists (fun file => Original file = original) files.
Proof.
  induction files as [| f files IH]; cbn [Document.File_range].
  - rewrite Exists_nil. split; [discriminate | contradiction].
  - rewrite Exists_cons.
    destruct (decide (Original f = original)) as [Heq | Hne]; cbn [snd].
    + split; [intros _; left; exact Heq | reflexivity].
    + rewrite IH. tauto.
Qed.

(** X16: [File] reports a match exactly when some File of the Document has
    the given [original].  When no two Files share their [original], looking
    up the [original] of any File of the Document returns that very File. *)
Theorem File_finds_each_file (d : Document) :
  (forall original,
     (Document.File d original).1.2 = true
     <-> Exists (fun file => Original file = original) (Files d))
  /\ (NoDup (map Original (Files d)) ->
      forall file,
        In file (Files d) ->
        Document.File d (Original file) = ((file, true), d)).
Proof.
  unfold Document.File. cbn [fst snd]. split.
  - intros original. apply File_range_found.
  - intros Hunique file Hin. f_equal.
    induction (Files d) as [| f files IH]; [contradiction Hin |].
    cbn [map] in Hunique. apply NoDup_cons in Hunique as [Hfresh Hunique].
    cbn [Document.File_range].
    destruct Hin as [-> | Hin].
    + destruct (decide (Original file = Original file)) as [_ | Hne];
        [reflexivity | contradiction Hne; reflexivity].
    + destruct (decide (Original f = Original file)) as [Heq | _].
      * contradiction Hfresh. rewrite Heq.
        apply list_elem_of_In, in_map. exact Hin.
      * apply IH; assumption.
Qed.

Lemma File_finds_each_file_witness :
  Document.File sound_document "Two.strings"
  = ((mkFile "Two.strings" "en" "plaintext" "it" zero_Header
        (mkBody [mkTransUnit "0" "Yes" "Si" ""]), true),
     sound_document).
Proof.
  assert (Hunique : NoDup (map Original (Files sound_document)))
    by (apply (bool_decide_unpack _); vm_compute; exact I).
  exact (proj2 (File_finds_each_file sound_document) Hunique
           (mkFile "Two.strings" "en" "plaintext" "it" zero_Header
              (mkBody [mkTransUnit "0" "Yes" "Si" ""]))
           (or_intror (or_introl eq_refl))).
Defined.
